(** * The training loop of [src/train.py]

    A shallow embedding of [train_one_epoch], [validate], [save_checkpoint]
    and [train], and the properties of the checkpoint / early-stopping
    policy.  Everything the file delegates to the deep-learning framework
    (forward pass, loss, gradients, optimizer and scheduler steps) is a field
    of a [framework] record; what the file computes by itself (Python
    arithmetic on the running counters, the comparisons, the control flow,
    the exceptions) is written out. *)

From Stdlib Require Import ZArith List Bool Lia.
From Stdlib Require Import Floats.SpecFloat.
From Stdlib Require Strings.String.
Import ListNotations.
Local Open Scope Z_scope.

(** ** Python exceptions and the state-and-exception monad *)

Inductive exn : Type :=
| ZeroDivisionError
| TypeError
| AttributeError.

Inductive Result (A : Type) : Type :=
| Ok (a : A)
| Raise (e : exn).
Arguments Ok {A} a.
Arguments Raise {A} e.

(** A computation over a mutable store [S]: it ends with a value or with an
    exception, and in both cases with the store as it is at that point. *)
Definition M (S A : Type) : Type := S -> Result A * S.

Definition ret {S A} (a : A) : M S A := fun s => (Ok a, s).

Definition bind {S A B} (m : M S A) (k : A -> M S B) : M S B :=
  fun s =>
    match m s with
    | (Ok a, s') => k a s'
    | (Raise e, s') => (Raise e, s')
    end.

Definition raise {S A} (e : exn) : M S A := fun s => (Raise e, s).

Definition get {S} : M S S := fun s => (Ok s, s).

Definition upd {S} (f : S -> S) : M S unit := fun s => (Ok tt, f s).

Definition of_result {S A} (r : Result A) : M S A := fun s => (r, s).

Declare Scope py_scope.
Delimit Scope py_scope with py.
Notation "x <- c ;; k" := (bind c (fun x => k))
  (at level 61, c at next level, right associativity) : py_scope.
Notation "c ;;; k" := (bind c (fun _ => k))
  (at level 61, right associativity) : py_scope.
Local Open Scope py_scope.

(** [for k, a in enumerate(l, start)] with the loop-carried variables [b]. *)
Fixpoint for_enumerate {S A B} (body : Z -> A -> B -> M S B)
         (start : Z) (l : list A) (b : B) : M S B :=
  match l with
  | [] => ret b
  | a :: l' => b' <- body start a b ;; for_enumerate body (start + 1) l' b'
  end.

(** [range(n)]: empty when [n <= 0]. *)
Definition range (n : Z) : list Z := map Z.of_nat (seq 0 (Z.to_nat n)).

(** ** Numbers: Python scalars and 0-dimensional tensors *)

Definition infinity : spec_float := S754_infinity false.
Definition zero : spec_float := S754_zero false.

(** Python's [float] is binary64. *)
Definition b64_add := SFadd 53 1024.
Definition b64_sub := SFsub 53 1024.
Definition b64_div := SFdiv 53 1024.
Definition b64_of_Z (n : Z) : spec_float := binary_normalize 53 1024 n 0 false.

(** An [int64] tensor element wraps around. *)
Definition wrap64 (n : Z) : Z := (n + 2 ^ 63) mod 2 ^ 64 - 2 ^ 63.

Section Tensor.
(** The default floating dtype of the tensors, by its precision and
    exponent bound ([24], [128] for float32). *)
Variables tprec temax : Z.

Definition t_add := SFadd tprec temax.
Definition t_sub := SFsub tprec temax.
Definition t_div := SFdiv tprec temax.
Definition t_of_Z (n : Z) : spec_float := binary_normalize tprec temax n 0 false.
(** A Python float operand is cast to the tensor's dtype. *)
Definition t_round (x : spec_float) : spec_float :=
  match x with
  | S754_finite s m e => binary_round tprec temax s m e
  | _ => x
  end.

(** The values that the counters and losses of the two passes take. *)
Inductive value : Type :=
| PyInt (n : Z)
| PyFloat (x : spec_float)
| TInt (n : Z)
| TFloat (x : spec_float).

Definition is_tensor (v : value) : bool :=
  match v with TInt _ | TFloat _ => true | _ => false end.

Definition is_floating (v : value) : bool :=
  match v with PyFloat _ | TFloat _ => true | _ => false end.

Definition as_Z (v : value) : Z :=
  match v with PyInt n | TInt n => n | _ => 0 end.

(** An operand seen as a float of the operation's type.  The ints met here
    are batch counts, indices and lengths, which the conversion takes
    without overflow. *)
Definition as_b64 (v : value) : spec_float :=
  match v with
  | PyInt n | TInt n => b64_of_Z n
  | PyFloat x | TFloat x => x
  end.

Definition as_t (v : value) : spec_float :=
  match v with
  | PyInt n | TInt n => t_of_Z n
  | PyFloat x => t_round x
  | TFloat x => x
  end.

Definition is_zero (v : value) : bool :=
  match v with
  | PyInt n | TInt n => n =? 0
  | PyFloat (S754_zero _) | TFloat (S754_zero _) => true
  | _ => false
  end.

(** [a + b] and [a - b]: a tensor operand makes the result a tensor, a
    floating operand makes it floating. *)
Definition py_arith (fz : Z -> Z -> Z)
           (f64 ft : spec_float -> spec_float -> spec_float)
           (a b : value) : value :=
  if is_tensor a || is_tensor b then
    if is_floating a || is_floating b
    then TFloat (ft (as_t a) (as_t b))
    else TInt (wrap64 (fz (as_Z a) (as_Z b)))
  else
    if is_floating a || is_floating b
    then PyFloat (f64 (as_b64 a) (as_b64 b))
    else PyInt (fz (as_Z a) (as_Z b)).

Definition py_add : value -> value -> value := py_arith Z.add b64_add t_add.
Definition py_sub : value -> value -> value := py_arith Z.sub b64_sub t_sub.

(** [a / b]: between Python scalars a zero divisor raises; as soon as a
    tensor is involved the division is the tensor's and gives inf or nan. *)
Definition py_truediv (a b : value) : Result value :=
  if is_tensor a || is_tensor b then Ok (TFloat (t_div (as_t a) (as_t b)))
  else if is_zero b then Raise ZeroDivisionError
  else Ok (PyFloat (b64_div (as_b64 a) (as_b64 b))).

(** The truth value of [a < b]. *)
Definition py_lt (a b : value) : bool :=
  if is_tensor a || is_tensor b then
    if is_floating a || is_floating b
    then SFltb (as_t a) (as_t b)
    else as_Z a <? as_Z b
  else
    if is_floating a || is_floating b
    then SFltb (as_b64 a) (as_b64 b)
    else as_Z a <? as_Z b.
End Tensor.

(** ** The framework: what [train.py] calls but does not define *)

Record framework : Type := {
  X : Type;                         (* a batch of inputs *)
  Labels : Type;                    (* a batch of labels *)
  Pred : Type;                      (* the model's output on a batch *)
  Params : Type;                    (* the model's parameters *)
  Buffers : Type;                   (* the rest of the module state *)
  Grads : Type;                     (* the [.grad] fields *)
  OptState : Type;                  (* optimizer and scheduler state *)
  tprec : Z;
  temax : Z;
  transform : X -> X;
  (* [model(x)]: reads the parameters and the mode, may update buffers *)
  forward : Params -> Buffers -> bool -> X -> Buffers * Pred;
  loss_fn : Pred -> Labels -> spec_float;
  no_grads : Grads;
  (* [loss.backward()] for the loss of this forward pass, accumulated *)
  backward : Params -> Buffers -> bool -> X -> Labels -> Grads -> Grads;
  optimizer_step : OptState -> Params -> Grads -> OptState * Params;
  scheduler_step : OptState -> OptState;
  (* [torch.sum(torch.argmax(pred) == y)] *)
  count_correct : Pred -> Labels -> Z;
  (* [x.size(0)] *)
  size0 : X -> Z
}.

(** The second argument of [save_checkpoint]: a path, or the [...] object
    that [train] passes at its three call sites. *)
Inductive save_target : Type :=
| Ellipsis
| Path (name : String.string).

(** What the progress bars and [print] write. *)
Inductive line : Type :=
| Postfix (avg_loss avg_acc : value)
| Printed (a b : value).

Section Passes.
Variable F : framework.

Definition batch : Type := X F * Labels F.
Definition state_dict_t : Type := Params F * Buffers F.

(** Every object [train] and its passes can reach. *)
Record world : Type := {
  params : Params F;
  buffers : Buffers F;
  training : bool;                            (* [model.training] *)
  grad_enabled : bool;                        (* torch's grad mode *)
  grads : Grads F;
  opt : OptState F;
  files : list (save_target * state_dict_t);  (* written by [torch.save] *)
  console : list line
}.

Definition set_params p w :=
  {| params := p; buffers := buffers w; training := training w;
     grad_enabled := grad_enabled w; grads := grads w; opt := opt w;
     files := files w; console := console w |}.
Definition set_buffers b w :=
  {| params := params w; buffers := b; training := training w;
     grad_enabled := grad_enabled w; grads := grads w; opt := opt w;
     files := files w; console := console w |}.
Definition set_training t w :=
  {| params := params w; buffers := buffers w; training := t;
     grad_enabled := grad_enabled w; grads := grads w; opt := opt w;
     files := files w; console := console w |}.
Definition set_grad_enabled g w :=
  {| params := params w; buffers := buffers w; training := training w;
     grad_enabled := g; grads := grads w; opt := opt w;
     files := files w; console := console w |}.
Definition set_grads g w :=
  {| params := params w; buffers := buffers w; training := training w;
     grad_enabled := grad_enabled w; grads := g; opt := opt w;
     files := files w; console := console w |}.
Definition set_opt o w :=
  {| params := params w; buffers := buffers w; training := training w;
     grad_enabled := grad_enabled w; grads := grads w; opt := o;
     files := files w; console := console w |}.
Definition set_files f w :=
  {| params := params w; buffers := buffers w; training := training w;
     grad_enabled := grad_enabled w; grads := grads w; opt := opt w;
     files := f; console := console w |}.
Definition write_line l w :=
  {| params := params w; buffers := buffers w; training := training w;
     grad_enabled := grad_enabled w; grads := grads w; opt := opt w;
     files := files w; console := console w ++ [l] |}.

(** *** Framework calls as store updates *)

Definition model_call (x : X F) : M world (Pred F) :=
  fun w =>
    let (b, pred) := forward F (params w) (buffers w) (training w) x in
    (Ok pred, set_buffers b w).

Definition optimizer_zero_grad : M world unit :=
  upd (set_grads (no_grads F)).

Definition do_optimizer_step : M world unit :=
  upd (fun w =>
         let (o, p) := optimizer_step F (opt w) (params w) (grads w) in
         set_params p (set_opt o w)).

Definition do_scheduler_step : M world unit :=
  upd (fun w => set_opt (scheduler_step F (opt w)) w).

Definition state_dict (w : world) : state_dict_t := (params w, buffers w).

(** [torch.save(sd, f)]: a path gets the state dict written; the [...]
    object is neither a path nor a writable buffer, and the call raises
    before anything is written. *)
Definition torch_save (sd : state_dict_t) (p : save_target) : M world unit :=
  match p with
  | Path _ => upd (fun w => set_files (files w ++ [(p, sd)]) w)
  | Ellipsis => raise AttributeError
  end.

Definition set_postfix_str (avg_loss avg_acc : value) : M world unit :=
  upd (write_line (Postfix avg_loss avg_acc)).

Definition print (a b : value) : M world unit :=
  upd (write_line (Printed a b)).

(** [with torch.no_grad(): body]: the grad mode is switched off for the
    body and put back on the way out, exception or not. *)
Definition with_no_grad {A} (body : M world A) : M world A :=
  fun w =>
    let prev := grad_enabled w in
    let (r, w') := body (set_grad_enabled false w) in
    (r, set_grad_enabled prev w').

Definition add := py_add (tprec F) (temax F).
Definition sub := py_sub (tprec F) (temax F).
Definition truediv {S} (a b : value) : M S value :=
  of_result (py_truediv (tprec F) (temax F) a b).
Definition lt := py_lt (tprec F) (temax F).

(** *** [train_one_epoch] *)

(** The variables carried around the batch loop. *)
Record counters : Type := {
  running_loss : value;
  correctly_classified : value;
  incorrectly_classified : value
}.

Definition counters0 : counters :=
  {| running_loss := PyFloat zero;
     correctly_classified := PyInt 0;
     incorrectly_classified := PyInt 0 |}.

Definition trn_batch (k : Z) (b : batch) (c : counters) : M world counters :=
  let (x, y) := b in
  optimizer_zero_grad ;;;
  let x := transform F x in
  w0 <- get ;;
  pred <- model_call x ;;
  let loss := loss_fn F pred y in
  upd (fun w => set_grads
         (backward F (params w0) (buffers w0) (training w0) x y (grads w)) w) ;;;
  do_optimizer_step ;;;
  let cc := add (correctly_classified c) (TInt (count_correct F pred y)) in
  let ic := add (incorrectly_classified c) (sub (PyInt (size0 F x)) cc) in
  let rl := add (running_loss c) (PyFloat loss) in
  avg_loss <- truediv rl (PyInt k) ;;
  avg_acc <- truediv cc (add cc ic) ;;
  set_postfix_str avg_loss avg_acc ;;;
  ret {| running_loss := rl;
         correctly_classified := cc;
         incorrectly_classified := ic |}.

Definition len {A} (l : list A) : Z := Z.of_nat (length l).

Definition train_one_epoch (trn_loader : list batch) : M world (value * value) :=
  c <- for_enumerate trn_batch 0 trn_loader counters0 ;;
  avg_loss <- truediv (running_loss c) (PyInt (len trn_loader)) ;;
  avg_acc <- truediv (correctly_classified c)
               (add (correctly_classified c) (incorrectly_classified c)) ;;
  ret (avg_loss, avg_acc).

(** *** [validate] *)

Definition val_batch (k : Z) (b : batch) (c : counters) : M world counters :=
  let (x, y) := b in
  let x := transform F x in
  pred <- model_call x ;;
  let loss := loss_fn F pred y in
  let cc := add (correctly_classified c) (TInt (count_correct F pred y)) in
  let ic := add (incorrectly_classified c) (sub (PyInt (size0 F x)) cc) in
  let rl := add (running_loss c) (TFloat loss) in
  avg_loss <- truediv rl (PyInt k) ;;
  avg_acc <- truediv cc (add cc ic) ;;
  set_postfix_str avg_loss avg_acc ;;;
  ret {| running_loss := rl;
         correctly_classified := cc;
         incorrectly_classified := ic |}.

Definition validate (val_loader : list batch) : M world (value * value) :=
  c <- with_no_grad (for_enumerate val_batch 1 val_loader counters0) ;;
  avg_loss <- truediv (running_loss c) (PyInt (len val_loader)) ;;
  avg_acc <- truediv (correctly_classified c)
               (add (correctly_classified c) (incorrectly_classified c)) ;;
  ret (avg_loss, avg_acc).

(** *** [save_checkpoint] *)

Definition save_checkpoint (save_path : save_target) : M world state_dict_t :=
  w <- get ;;
  let sd := state_dict w in
  torch_save sd save_path ;;;
  ret sd.
End Passes.

Arguments params {F} w.
Arguments buffers {F} w.
Arguments training {F} w.
Arguments grad_enabled {F} w.
Arguments grads {F} w.
Arguments opt {F} w.
Arguments files {F} w.
Arguments console {F} w.

(** ** [train] *)

(** The three local variables of the checkpoint / early-stopping policy. *)
Record policy : Type := {
  best_val_loss : value;
  best_val_accuracy : value;
  epochs_without_improvement : Z
}.

Definition set_epochs_without_improvement (n : Z) (p : policy) : policy :=
  {| best_val_loss := best_val_loss p;
     best_val_accuracy := best_val_accuracy p;
     epochs_without_improvement := n |}.

(** The statements of [train] that act on the outside, and its early
    [return model]; the log pairs each with the epoch it belongs to. *)
Inductive call : Type :=
| ModelTrain
| TrainOneEpoch
| SchedulerStep
| PrintStats
| ModelEval
| Validate
| SaveCheckpoint
| ReturnModel.

(** [model.train()] is the first statement of the loop body. *)
Definition enters (ec : Z * call) : bool :=
  match snd ec with ModelTrain => true | _ => false end.

(** How an epoch ends: the loop goes on, or [train] returns the model. *)
Inductive flow : Type :=
| Next
| Returned.

Section Train.
Variable F : framework.

Record run_state : Type := {
  tw : world F;
  calls : list (Z * call)
}.

(** Running [m] as the statement [c] of epoch [epoch]: the statement is
    logged, also when it raises. *)
Definition called {A} (epoch : Z) (c : call) (m : M (world F) A) : M run_state A :=
  fun st =>
    let (r, w') := m (tw st) in
    (r, {| tw := w'; calls := calls st ++ [(epoch, c)] |}).

(** The two passes that [train] calls are parameters of the loop;
    [train] below is the loop with the module's own two functions. *)
Variables trn_pass val_pass : M (world F) (value * value).
(** [early_stopping]: an int, or [None] when [--early-stopping] is absent. *)
Variable early_stopping : option Z.

(** Lines 106-109. *)
Definition policy0 : policy :=
  {| best_val_loss := PyFloat infinity;
     best_val_accuracy := PyFloat zero;
     epochs_without_improvement := 0 |}.

(** Lines 112-129: the two passes of an epoch; the value is what
    [validate] returned. *)
Definition epoch_passes (epoch : Z) : M run_state (value * value) :=
  called epoch ModelTrain (upd (set_training F true)) ;;;
  trn <- called epoch TrainOneEpoch trn_pass ;;
  called epoch SchedulerStep (do_scheduler_step F) ;;;
  called epoch PrintStats (print F (fst trn) (snd trn)) ;;;
  called epoch ModelEval (upd (set_training F false)) ;;;
  val <- called epoch Validate val_pass ;;
  called epoch PrintStats (print F (fst val) (snd val)) ;;;
  ret val.

(** Lines 131-141: save, count, or stop. *)
Definition decide (epoch : Z) (p : policy) (val_loss val_accuracy : value)
  : M run_state (flow * policy) :=
  if lt F val_loss (best_val_loss p) then
    called epoch SaveCheckpoint (save_checkpoint F Ellipsis) ;;;
    ret (Next, set_epochs_without_improvement 0 p)
  else if lt F val_accuracy (best_val_accuracy p) then
    called epoch SaveCheckpoint (save_checkpoint F Ellipsis) ;;;
    ret (Next, set_epochs_without_improvement 0 p)
  else
    let p := set_epochs_without_improvement (epochs_without_improvement p + 1) p in
    match early_stopping with
    | None => raise TypeError        (* [int >= None] *)
    | Some threshold =>
        if epochs_without_improvement p >=? threshold then
          called epoch SaveCheckpoint (save_checkpoint F Ellipsis) ;;;
          called epoch ReturnModel (ret tt) ;;;
          ret (Returned, p)
        else ret (Next, p)
    end.

(** Lines 112-141: the body of the epoch loop. *)
Definition train_epoch (epoch : Z) (p : policy) : M run_state (flow * policy) :=
  val <- epoch_passes epoch ;;
  decide epoch p (fst val) (snd val).

(** [for epoch in epochs: ...]; the value is how the loop was left and the
    policy variables at that point. *)
Fixpoint train_loop (epochs : list Z) (p : policy) : M run_state (flow * policy) :=
  match epochs with
  | [] => ret (Next, p)
  | epoch :: rest =>
      r <- train_epoch epoch p ;;
      match fst r with
      | Next => train_loop rest (snd r)
      | Returned => ret r
      end
  end.

Definition train_with (num_epochs : Z) (w : world F)
  : Result (flow * policy) * run_state :=
  train_loop (range num_epochs) policy0 {| tw := w; calls := [] |}.

(** The number of epochs that a run has entered. *)
Definition epochs_entered (st : run_state) : nat :=
  length (filter enters (calls st)).
End Train.

Arguments tw {F} r.
Arguments calls {F} r.

(** [train] itself. *)
Definition train (F : framework) (num_epochs : Z)
           (trn_loader val_loader : list (batch F))
           (early_stopping : option Z) (w : world F)
  : Result (flow * policy) * run_state F :=
  train_with F (train_one_epoch F trn_loader) (validate F val_loader)
             early_stopping num_epochs w.

(** ** A small framework to run the definitions on

    One real parameter; the prediction is the parameter, the loss is its
    value, every optimizer step adds the gradient [1]. *)
Definition b32_of_Z (n : Z) : spec_float := binary_normalize 24 128 n 0 false.

Definition toy : framework :=
  {| X := Z; Labels := Z; Pred := Z; Params := Z; Buffers := unit;
     Grads := Z; OptState := Z;
     tprec := 24; temax := 128;
     transform := fun x => x;
     forward := fun p b _ _ => (b, p);
     loss_fn := fun pred _ => b32_of_Z pred;
     no_grads := 0;
     backward := fun _ _ _ _ _ g => g + 1;
     optimizer_step := fun o p g => (o + 1, p + g);
     scheduler_step := fun o => o;
     count_correct := fun _ y => y;
     size0 := fun x => x |}.

Definition toy_world (p : Z) : world toy :=
  Build_world toy p tt false true 0 0 [] [].

(** A training pass that returns: it adds 1 to the parameter and reports
    loss and accuracy 0. *)
Definition stub_trn_pass : M (world toy) (value * value) :=
  upd (fun w : world toy => set_params toy (params w + 1) w) ;;;
  ret (PyFloat zero, TFloat zero).


(** The start of a run from parameter [p0]. *)
Definition start (p0 : Z) : run_state toy := {| tw := toy_world p0; calls := [] |}.

(** Loaders: one batch of two samples with one correct answer; four batches
    of two samples with two correct answers each. *)
Definition one_batch : list (batch toy) := [(2, 1)].
Definition four_correct_batches : list (batch toy) := [(2, 2); (2, 2); (2, 2); (2, 2)].

(** 0.5 and -2.0 as float32. *)
Definition half : spec_float := S754_finite false 8388608 (-24).


(** The statements that one epoch can log, from entering the body to the
    point where it raises, goes to the next epoch or returns. *)
Definition epoch_logs : list (list call) :=
  [ [ModelTrain; TrainOneEpoch];
    [ModelTrain; TrainOneEpoch; SchedulerStep; PrintStats; ModelEval; Validate];
    [ModelTrain; TrainOneEpoch; SchedulerStep; PrintStats; ModelEval; Validate; PrintStats];
    [ModelTrain; TrainOneEpoch; SchedulerStep; PrintStats; ModelEval; Validate; PrintStats;
     SaveCheckpoint];
    [ModelTrain; TrainOneEpoch; SchedulerStep; PrintStats; ModelEval; Validate; PrintStats;
     SaveCheckpoint; ReturnModel] ].

Definition tagged (epoch_log : Z * list call) : list (Z * call) :=
  map (pair (fst epoch_log)) (snd epoch_log).



(** The order of the steps inside each epoch, read off a log: wherever the
    validation pass of epoch [k] stands, the training pass of [k] stands
    before it and not after it; wherever a checkpoint save or the early
    return of epoch [k] stands, the validation pass of [k] stands before it
    and not after it. *)
Definition epoch_order (log : list (Z * call)) : Prop :=
  forall (l1 l2 : list (Z * call)) (k : Z) (c : call),
    log = l1 ++ (k, c) :: l2 ->
    (c = Validate ->
     In (k, TrainOneEpoch) l1 /\ ~ In (k, TrainOneEpoch) l2) /\
    (c = SaveCheckpoint \/ c = ReturnModel ->
     In (k, Validate) l1 /\ ~ In (k, Validate) l2).

(** ** Vocabulary of the statements *)

(** What a pass leaves alone when it only runs the model forward:
    everything but the buffers and the console. *)
Definition same_model (F : framework) (w w' : world F) : Prop :=
  params w' = params w /\
  training w' = training w /\
  grad_enabled w' = grad_enabled w /\
  grads w' = grads w /\
  opt w' = opt w /\
  files w' = files w.

(** The run state in which the call [save_checkpoint(model, ...)] of epoch
    [epoch] leaves [train]: the call is made, the store is as it was. *)
Definition save_attempted (F : framework) (epoch : Z) (st : run_state F)
  : run_state F :=
  {| tw := tw st; calls := calls st ++ [(epoch, SaveCheckpoint)] |}.


(** ** What the batch loops read and count *)

Section Stats.
Variable F : framework.

(** Loss, number of correct answers and [x.size(0)] of each batch of a
    forward-only pass, in loader order; the buffers go from one forward
    call to the next. *)
Fixpoint batch_stats (p : Params F) (mode : bool) (b : Buffers F)
         (l : list (batch F)) : list (spec_float * Z * Z) :=
  match l with
  | [] => []
  | xy :: l' =>
      let x := transform F (fst xy) in
      let out := forward F p b mode x in
      (loss_fn F (snd out) (snd xy), count_correct F (snd out) (snd xy), size0 F x)
        :: batch_stats p mode (fst out) l'
  end.

(** The losses added up as the tensor dtype adds them, left to right. *)
Definition sum_losses (stats : list (spec_float * Z * Z)) (from : spec_float)
  : spec_float :=
  fold_left (fun acc t => t_add (tprec F) (temax F) acc (fst (fst t))) stats from.
End Stats.

(** The two integer counters, without the wrap-around: each batch adds its
    correct answers to [correct], and to [incorrect] its size minus the
    value [correct] has reached (lines 74-75 and 43-44). *)
Fixpoint tally (stats : list (spec_float * Z * Z)) (correct incorrect : Z) : Z * Z :=
  match stats with
  | [] => (correct, incorrect)
  | t :: rest =>
      let correct' := correct + snd (fst t) in
      tally rest correct' (incorrect + (snd t - correct'))
  end.

(** The store that a training step on batch [b] leaves: gradients zeroed,
    forward pass, gradients of this batch's loss, one optimizer step
    (lines 34-41). *)
Definition first_step (F : framework) (b : batch F) (w : world F) : world F :=
  let x := transform F (fst b) in
  let out := forward F (params w) (buffers w) (training w) x in
  let g := backward F (params w) (buffers w) (training w) x (snd b) (no_grads F) in
  let step := optimizer_step F (opt w) (params w) g in
  {| params := snd step; buffers := fst out; training := training w;
     grad_enabled := grad_enabled w; grads := g; opt := fst step;
     files := files w; console := console w |}.

(** ** [main], up to its call of [train] *)

Module Main.










End Main.

(** ** Properties of [train_one_epoch] *)

Section TrainOneEpoch.
Variable F : framework.

Lemma truediv_by_int_zero (S : Type) (x : spec_float) (s : S) :
  truediv F (PyFloat x) (PyInt 0) s = (Raise ZeroDivisionError, s).
Proof. reflexivity. Qed.

Lemma add_py_floats (x y : spec_float) :
  add F (PyFloat x) (PyFloat y) = PyFloat (b64_add x y).
Proof. reflexivity. Qed.

(** The first batch stops the loop: the store is the one left by the
    optimizer step on that batch. *)
Lemma trn_batch_first (b : batch F) (c : counters) (w : world F) :
  is_tensor (running_loss c) = false ->
  is_floating (running_loss c) = true ->
  exists w', trn_batch F 0 b c w = (Raise ZeroDivisionError, w').
Proof.
  intros Hts Hfl. destruct b as [x y].
  unfold trn_batch, bind, optimizer_zero_grad, do_optimizer_step, model_call,
    get, upd.
  destruct (forward F _ _ _ _) as [bf pred].
  cbn [fst snd].
  destruct (running_loss c) as [n | r | n | r]; try discriminate.
  rewrite add_py_floats, truediv_by_int_zero.
  eexists; reflexivity.
Qed.

Lemma train_one_epoch_nonempty (b : batch F) (rest : list (batch F)) (w : world F) :
  train_one_epoch F (b :: rest) w = (Raise ZeroDivisionError, snd (trn_batch F 0 b counters0 w)).
Proof.
  unfold train_one_epoch. cbn [for_enumerate].
  destruct (trn_batch_first b counters0 w eq_refl eq_refl) as [w' Hw'].
  unfold bind at 1 2. unfold bind at 1. rewrite Hw'. reflexivity.
Qed.

Lemma train_one_epoch_empty (w : world F) :
  train_one_epoch F [] w = (Raise ZeroDivisionError, w).
Proof. reflexivity. Qed.

(** C4.  On a non-empty loader [train_one_epoch] divides [running_loss] by
    the index [k = 0] in its first iteration: it ends with
    [ZeroDivisionError], in the store that the first batch's optimizer step
    left, and the batches after the first play no part. *)
Theorem train_one_epoch_raises_on_first_batch
        (b : batch F) (rest : list (batch F)) (w : world F) :
  fst (train_one_epoch F (b :: rest) w) = Raise ZeroDivisionError /\
  snd (train_one_epoch F (b :: rest) w) = snd (trn_batch F 0 b counters0 w) /\
  fst (trn_batch F 0 b counters0 w) = Raise ZeroDivisionError.
Proof.
  rewrite train_one_epoch_nonempty. repeat split.
  destruct (trn_batch_first b counters0 w eq_refl eq_refl) as [w' Hw'].
  now rewrite Hw'.
Qed.
End TrainOneEpoch.

(** ** Properties of [validate] *)

Section Validate.
Variable F : framework.

Lemma same_model_refl (w : world F) : same_model F w w.
Proof. repeat split. Qed.

Lemma same_model_trans (w1 w2 w3 : world F) :
  same_model F w1 w2 -> same_model F w2 w3 -> same_model F w1 w3.
Proof.
  unfold same_model. intros (A1 & A2 & A3 & A4 & A5 & A6) (B1 & B2 & B3 & B4 & B5 & B6).
  repeat split; congruence.
Qed.

Lemma add_tensor_r (a b : value) : is_tensor b = true -> is_tensor (add F a b) = true.
Proof.
  intros Hb. unfold add, py_add, py_arith. rewrite Hb, orb_true_r.
  now destruct (is_floating a || is_floating b).
Qed.

Lemma truediv_tensor_l (S : Type) (a b : value) (s : S) :
  is_tensor a = true ->
  truediv F a b s = (Ok (TFloat (t_div (tprec F) (temax F)
                                  (as_t (tprec F) (temax F) a)
                                  (as_t (tprec F) (temax F) b))), s).
Proof. intros Ha. unfold truediv, of_result, py_truediv. now rewrite Ha. Qed.

(** One validation batch never raises; it touches the buffers and the
    console only, and leaves tensors in the counters. *)
Lemma val_batch_ok (k : Z) (b : batch F) (c : counters) (w : world F) :
  exists c' w',
    val_batch F k b c w = (Ok c', w') /\
    params w' = params w /\ training w' = training w /\
    grad_enabled w' = grad_enabled w /\ grads w' = grads w /\
    opt w' = opt w /\ files w' = files w /\
    is_tensor (running_loss c') = true /\
    is_tensor (correctly_classified c') = true.
Proof.
  destruct b as [x y]. unfold val_batch, bind, model_call.
  destruct (forward F _ _ _ _) as [bf pred].
  rewrite truediv_tensor_l by (now apply add_tensor_r).
  rewrite truediv_tensor_l by (now apply add_tensor_r).
  unfold set_postfix_str, upd, ret. cbn.
  do 2 eexists. split; [reflexivity|].
  repeat split; now apply add_tensor_r.
Qed.

Lemma val_loop_ok (l : list (batch F)) :
  forall (k : Z) (c : counters) (w : world F),
  exists c' w',
    for_enumerate (val_batch F) k l c w = (Ok c', w') /\
    same_model F w w' /\
    (l = [] -> c' = c) /\
    (l <> [] -> is_tensor (running_loss c') = true /\
                is_tensor (correctly_classified c') = true).
Proof.
  induction l as [|b l IH]; intros k c w.
  - exists c, w. cbn. repeat split; congruence.
  - cbn [for_enumerate]. unfold bind at 1.
    destruct (val_batch_ok k b c w)
      as (c1 & w1 & E1 & P1 & P2 & P3 & P4 & P5 & P6 & T1 & T2).
    rewrite E1.
    destruct (IH (k + 1) c1 w1) as (c2 & w2 & E2 & Hsame & Hnil & Hcons).
    exists c2, w2. split; [exact E2|]. split.
    + eapply same_model_trans; [|exact Hsame]. repeat split; assumption.
    + split; [discriminate|]. intros _.
      destruct l as [|b' l'].
      * rewrite (Hnil eq_refl). now split.
      * apply Hcons. discriminate.
Qed.

Lemma with_no_grad_same (A : Type) (m : M (world F) A) (w : world F)
      (r : Result A) (w1 : world F) :
  m (set_grad_enabled F false w) = (r, w1) ->
  same_model F (set_grad_enabled F false w) w1 ->
  fst (with_no_grad F m w) = r /\ same_model F w (snd (with_no_grad F m w)).
Proof.
  intros E (P1 & P2 & P3 & P4 & P5 & P6). unfold with_no_grad. rewrite E. cbn.
  split; [reflexivity|]. repeat split; assumption.
Qed.

Lemma validate_run (val_loader : list (batch F)) (w : world F) :
  exists c w2,
    with_no_grad F (for_enumerate (val_batch F) 1 val_loader counters0) w = (Ok c, w2) /\
    same_model F w w2 /\
    validate F val_loader w =
      (match val_loader with
       | [] => Raise ZeroDivisionError
       | _ :: _ =>
           Ok (TFloat (t_div (tprec F) (temax F)
                         (as_t (tprec F) (temax F) (running_loss c))
                         (t_of_Z (tprec F) (temax F) (len val_loader))),
               TFloat (t_div (tprec F) (temax F)
                         (as_t (tprec F) (temax F) (correctly_classified c))
                         (as_t (tprec F) (temax F)
                            (add F (correctly_classified c)
                                   (incorrectly_classified c)))))
       end, w2).
Proof.
  destruct (val_loop_ok val_loader 1 counters0 (set_grad_enabled F false w))
    as (c & w1 & E & Hsame & Hnil & Hcons).
  destruct (with_no_grad_same _ _ _ _ _ E Hsame) as [Hr Hs].
  destruct (with_no_grad F _ w) as [r w2] eqn:Ew. cbn [fst snd] in Hr, Hs. subst r.
  exists c, w2. split; [reflexivity|]. split; [exact Hs|].
  unfold validate, bind. rewrite Ew.
  destruct val_loader as [|b l].
  - rewrite (Hnil eq_refl). reflexivity.
  - destruct (Hcons ltac:(discriminate)) as [T1 T2].
    rewrite truediv_tensor_l by exact T1.
    rewrite truediv_tensor_l by exact T2.
    reflexivity.
Qed.

(** C10.  [validate] leaves the model's parameters as they were, for every
    framework (model, transform, loss function), loader and store, whether
    it returns or raises; so are the training flag, the grad mode, the
    gradients, the optimizer state and the saved files.  On a non-empty
    loader it returns the pair of averaged loss and accuracy, two tensors;
    on an empty one it raises [ZeroDivisionError]. *)
Theorem validate_leaves_parameters_unchanged (val_loader : list (batch F)) (w : world F) :
  same_model F w (snd (validate F val_loader w)) /\
  match val_loader with
  | [] => fst (validate F val_loader w) = Raise ZeroDivisionError
  | _ :: _ =>
      exists c,
        fst (with_no_grad F (for_enumerate (val_batch F) 1 val_loader counters0) w) = Ok c /\
        fst (validate F val_loader w) =
          Ok (TFloat (t_div (tprec F) (temax F)
                        (as_t (tprec F) (temax F) (running_loss c))
                        (t_of_Z (tprec F) (temax F) (len val_loader))),
              TFloat (t_div (tprec F) (temax F)
                        (as_t (tprec F) (temax F) (correctly_classified c))
                        (as_t (tprec F) (temax F)
                           (add F (correctly_classified c) (incorrectly_classified c)))))
  end.
Proof.
  destruct (validate_run val_loader w) as (c & w2 & Ew & Hs & Ev).
  rewrite Ev, Ew. cbn [fst snd]. split; [exact Hs|].
  destruct val_loader; [reflexivity|]. exists c. split; reflexivity.
Qed.
End Validate.

(** ** Properties of the epoch body *)

Section Epoch.
Variable F : framework.
Variables trn_pass val_pass : M (world F) (value * value).
Variable early_stopping : option Z.

Local Notation "'passes'" := (epoch_passes F trn_pass val_pass).
Local Notation "'decision'" := (decide F early_stopping).
Local Notation "'body'" := (train_epoch F trn_pass val_pass early_stopping).
Local Notation "'loop'" := (train_loop F trn_pass val_pass early_stopping).

Lemma called_save (epoch : Z) (st : run_state F) :
  called F epoch SaveCheckpoint (save_checkpoint F Ellipsis) st =
  (Raise AttributeError, save_attempted F epoch st).
Proof. reflexivity. Qed.

Lemma decide_on_loss (epoch : Z) (p : policy) (vl va : value) (st : run_state F) :
  lt F vl (best_val_loss p) = true ->
  decision epoch p vl va st = (Raise AttributeError, save_attempted F epoch st).
Proof. intros H. unfold decide. rewrite H. reflexivity. Qed.

Lemma decide_on_accuracy (epoch : Z) (p : policy) (vl va : value) (st : run_state F) :
  lt F vl (best_val_loss p) = false ->
  lt F va (best_val_accuracy p) = true ->
  decision epoch p vl va st = (Raise AttributeError, save_attempted F epoch st).
Proof. intros H1 H2. unfold decide. rewrite H1, H2. reflexivity. Qed.

Lemma body_after_passes (epoch : Z) (p : policy) (st st1 : run_state F)
      (vl va : value) :
  passes epoch st = (Ok (vl, va), st1) ->
  body epoch p st = decision epoch p vl va st1.
Proof. intros E. unfold train_epoch, bind. rewrite E. reflexivity. Qed.

Lemma loop_cons (epoch : Z) (rest : list Z) (p : policy) (st : run_state F) :
  loop (epoch :: rest) p st =
  match body epoch p st with
  | (Ok (Next, p'), st') => loop rest p' st'
  | (Ok (Returned, p'), st') => (Ok (Returned, p'), st')
  | (Raise e, st') => (Raise e, st')
  end.
Proof.
  cbn [train_loop]. unfold bind.
  destruct (body epoch p st) as [[[[|] p']|e] st']; reflexivity.
Qed.



Lemma decide_on_neither (epoch : Z) (p : policy) (vl va : value) (st : run_state F) :
  lt F vl (best_val_loss p) = false ->
  lt F va (best_val_accuracy p) = false ->
  decision epoch p vl va st =
  match early_stopping with
  | None => (Raise TypeError, st)
  | Some threshold =>
      if epochs_without_improvement p + 1 >=? threshold
      then (Raise AttributeError, save_attempted F epoch st)
      else (Ok (Next,
                set_epochs_without_improvement (epochs_without_improvement p + 1) p),
            st)
  end.
Proof.
  intros H1 H2. unfold decide. rewrite H1, H2. cbn zeta.
  destruct early_stopping as [threshold|]; [|reflexivity].
  cbn [epochs_without_improvement set_epochs_without_improvement].
  destruct (epochs_without_improvement p + 1 >=? threshold); reflexivity.
Qed.
End Epoch.

Section EarlyStop.
Variable F : framework.
Variables trn_pass val_pass : M (world F) (value * value).
Variable threshold : Z.

End EarlyStop.

(** ** Logs *)

Lemma split_app (A : Type) (l l' l1 l2 : list A) (x : A) :
  l ++ l' = l1 ++ x :: l2 ->
  (exists m, l = l1 ++ x :: m /\ l2 = m ++ l') \/
  (exists m, l1 = l ++ m /\ l' = m ++ x :: l2).
Proof.
  revert l1. induction l as [|a l IH]; intros l1 H.
  - right. exists l1. now split.
  - destruct l1 as [|b l1]; cbn in H; injection H as -> H.
    + left. exists l. now split.
    + destruct (IH _ H) as [(m & -> & ->) | (m & -> & ->)].
      * left. exists m. now split.
      * right. exists m. now split.
Qed.

Lemma tagged_epoch (k0 k : Z) (b : list call) (c : call) :
  In (k, c) (tagged (k0, b)) -> k = k0.
Proof.
  unfold tagged. cbn [fst snd]. rewrite in_map_iff.
  intros (c' & E & _). congruence.
Qed.

Lemma in_logs_epoch (kbs : list (Z * list call)) (k : Z) (c : call) :
  In (k, c) (flat_map tagged kbs) -> In k (map fst kbs).
Proof.
  rewrite in_flat_map. intros ([k0 b] & Hin & Hkc).
  apply tagged_epoch in Hkc. subst k0.
  apply in_map_iff. now exists (k, b).
Qed.

Ltac split_log H :=
  match type of H with
  | _ = ?l1 ++ _ :: _ =>
      destruct l1; cbn in H;
      [ first [ discriminate H | inversion H; subst; clear H ]
      | first [ discriminate H
              | let H' := fresh "H" in
                injection H as <- H'; split_log H' ] ]
  end.

(** The order inside the log of a single epoch. *)
Lemma epoch_log_order (k0 : Z) (b : list call) :
  In b epoch_logs -> epoch_order (tagged (k0, b)).
Proof.
  intros Hb l1 l2 k c H.
  unfold epoch_logs in Hb. cbn [In] in Hb.
  destruct Hb as [<- | [<- | [<- | [<- | [<- | []]]]]];
    unfold tagged in H; cbn [fst snd map] in H;
    split_log H;
    (split; intros Hc; try discriminate Hc;
     try (destruct Hc as [Hc | Hc]; discriminate Hc);
     (split; [cbn; tauto | cbn; intuition congruence])).
Qed.

Lemma logs_order (kbs : list (Z * list call)) :
  NoDup (map fst kbs) ->
  Forall (fun kb => In (snd kb) epoch_logs) kbs ->
  epoch_order (flat_map tagged kbs).
Proof.
  induction kbs as [|[k0 b0] kbs IH]; intros Hnd Hall l1 l2 k c H.
  - destruct l1; discriminate H.
  - cbn [map fst] in Hnd. inversion Hnd as [|? ? Hk0 Hnd']; subst.
    inversion Hall as [|? ? Hb0 Hall']; subst. cbn [snd] in Hb0.
    cbn [flat_map] in H.
    destruct (split_app _ _ _ _ _ _ H) as [(m & E & ->) | (m & -> & E)].
    + assert (k = k0) as ->.
      { apply (tagged_epoch k0 k b0 c). rewrite E. apply in_elt. }
      destruct (epoch_log_order k0 b0 Hb0 _ _ _ _ E) as [Hv Hs].
      split; intros Hc.
      * destruct (Hv Hc) as [Hi Hn]. split; [exact Hi|].
        intros Hin. apply in_app_or in Hin as [Hin|Hin]; [now apply Hn|].
        apply Hk0. now apply in_logs_epoch in Hin.
      * destruct (Hs Hc) as [Hi Hn]. split; [exact Hi|].
        intros Hin. apply in_app_or in Hin as [Hin|Hin]; [now apply Hn|].
        apply Hk0. now apply in_logs_epoch in Hin.
    + destruct (IH Hnd' Hall' _ _ _ _ E) as [Hv Hs].
      split; intros Hc.
      * destruct (Hv Hc) as [Hi Hn]. split; [|exact Hn].
        apply in_or_app. now right.
      * destruct (Hs Hc) as [Hi Hn]. split; [|exact Hn].
        apply in_or_app. now right.
Qed.

Lemma range_NoDup (n : Z) : NoDup (range n).
Proof.
  unfold range. generalize (seq_NoDup (Z.to_nat n) 0).
  induction 1 as [|a l Ha _ IH]; cbn; constructor; [|exact IH].
  rewrite in_map_iff. intros (b & E & Hb).
  apply Nat2Z.inj in E. now subst b.
Qed.

Lemma range_length (n : Z) : length (range n) = Z.to_nat n.
Proof. unfold range. now rewrite length_map, length_seq. Qed.

Lemma combine_keys_NoDup (A B : Type) (l : list A) :
  NoDup l -> forall bs : list B, NoDup (map fst (combine l bs)).
Proof.
  induction 1 as [|a l Ha Hnd IH]; intros bs.
  - constructor.
  - destruct bs as [|b bs]; cbn; constructor.
    + intros Hin. apply Ha. apply in_map_iff in Hin as ([a' b'] & <- & Hin).
      now apply in_combine_l in Hin.
    + apply IH.
Qed.

Lemma combine_logs_allowed (l : list Z) (bs : list (list call)) :
  Forall (fun b => In b epoch_logs) bs ->
  Forall (fun kb : Z * list call => In (snd kb) epoch_logs) (combine l bs).
Proof.
  intros H. rewrite Forall_forall in *. intros [k b] Hin.
  apply in_combine_r in Hin. now apply H.
Qed.

Lemma entered_once (kbs : list (Z * list call)) :
  Forall (fun kb => In (snd kb) epoch_logs) kbs ->
  length (filter enters (flat_map tagged kbs)) = length kbs.
Proof.
  induction 1 as [|[k b] kbs Hb _ IH]; [reflexivity|].
  cbn [flat_map]. rewrite filter_app, length_app, IH.
  cbn [snd] in Hb. unfold epoch_logs in Hb. cbn [In] in Hb.
  destruct Hb as [<- | [<- | [<- | [<- | [<- | []]]]]]; reflexivity.
Qed.

(** ** Properties of whole runs *)

Section Run.
Variable F : framework.
Variables trn_pass val_pass : M (world F) (value * value).
Variable early_stopping : option Z.

Local Notation "'body'" := (train_epoch F trn_pass val_pass early_stopping).
Local Notation "'loop'" := (train_loop F trn_pass val_pass early_stopping).
Local Notation "'run'" := (train_with F trn_pass val_pass early_stopping).

(** Whatever the passes do, an epoch appends one of the epoch logs. *)
Lemma body_log (epoch : Z) (p : policy) (st : run_state F) :
  exists b, In b epoch_logs /\
            calls (snd (body epoch p st)) = calls st ++ tagged (epoch, b).
Proof.
  unfold train_epoch, epoch_passes, decide, bind, called, epoch_logs, tagged.
  cbn.
  destruct (trn_pass (set_training F true (tw st))) as [[trn|e] w1]; cbn.
  2:{ eexists. split; [left; reflexivity|]. now rewrite <- !app_assoc. }
  match goal with |- context [val_pass ?w] =>
    destruct (val_pass w) as [[val|e] w2]; cbn end.
  2:{ eexists. split; [right; left; reflexivity|]. now rewrite <- !app_assoc. }
  destruct (lt F (fst val) _); cbn.
  { eexists. split; [do 3 right; left; reflexivity|]. now rewrite <- !app_assoc. }
  destruct (lt F (snd val) _); cbn.
  { eexists. split; [do 3 right; left; reflexivity|]. now rewrite <- !app_assoc. }
  destruct early_stopping as [threshold|]; cbn.
  2:{ eexists. split; [do 2 right; left; reflexivity|]. now rewrite <- !app_assoc. }
  destruct (_ >=? threshold); cbn.
  - eexists. split; [do 3 right; left; reflexivity|]. now rewrite <- !app_assoc.
  - eexists. split; [do 2 right; left; reflexivity|]. now rewrite <- !app_assoc.
Qed.

(** A run appends one epoch log for each epoch it enters, in the order of
    the epochs, and enters no epoch twice. *)
Lemma loop_log (epochs : list Z) :
  forall (p : policy) (st : run_state F),
  exists bs : list (list call),
    (length bs <= length epochs)%nat /\
    Forall (fun b => In b epoch_logs) bs /\
    calls (snd (loop epochs p st)) = calls st ++ flat_map tagged (combine epochs bs).
Proof.
  induction epochs as [|epoch rest IH]; intros p st.
  - exists []. cbn. repeat split; auto. now rewrite app_nil_r.
  - rewrite loop_cons.
    destruct (body_log epoch p st) as (b & Hb & Hlog).
    destruct (body epoch p st) as [[[[|] p']|e] st1]; cbn [snd] in Hlog.
    + destruct (IH p' st1) as (bs & Hlen & Hall & Hcalls).
      exists (b :: bs). split; [cbn; lia|]. split; [now constructor|].
      rewrite Hcalls, Hlog. cbn [combine flat_map]. now rewrite app_assoc.
    + exists [b]. split; [cbn; lia|]. split; [constructor; [exact Hb | constructor]|].
      cbn [snd]. rewrite Hlog. destruct rest; cbn; now rewrite app_nil_r.
    + exists [b]. split; [cbn; lia|]. split; [constructor; [exact Hb | constructor]|].
      cbn [snd]. rewrite Hlog. destruct rest; cbn; now rewrite app_nil_r.
Qed.

(** C7.  [train] starts its loop with [best_val_loss = +inf],
    [best_val_accuracy = 0.] and [epochs_without_improvement = 0]: that is
    the policy state before any epoch runs, and the one a run of zero epochs
    ends with. *)
Theorem train_initial_policy (num_epochs : Z) (w : world F) :
  run num_epochs w =
    loop (range num_epochs)
         {| best_val_loss := PyFloat (S754_infinity false);
            best_val_accuracy := PyFloat (S754_zero false);
            epochs_without_improvement := 0 |}
         {| tw := w; calls := [] |} /\
  run 0 w =
    (Ok (Next, {| best_val_loss := PyFloat (S754_infinity false);
                  best_val_accuracy := PyFloat (S754_zero false);
                  epochs_without_improvement := 0 |}),
     {| tw := w; calls := [] |}).
Proof. split; reflexivity. Qed.

(** C8.  [train] is a total function of its inputs, and a run enters at
    most [num_epochs] epochs (none when [num_epochs <= 0]), whatever the
    passes return or raise. *)
Theorem train_runs_at_most_num_epochs (num_epochs : Z) (w : world F) :
  exists (r : Result (flow * policy)) (st : run_state F),
    run num_epochs w = (r, st) /\
    (epochs_entered F st <= Z.to_nat num_epochs)%nat.
Proof.
  destruct (run num_epochs w) as [r st] eqn:E.
  exists r, st. split; [reflexivity|].
  unfold train_with in E.
  destruct (loop_log (range num_epochs) policy0 {| tw := w; calls := [] |})
    as (bs & Hlen & Hall & Hcalls).
  rewrite E in Hcalls. cbn [snd calls app] in Hcalls.
  unfold epochs_entered. rewrite Hcalls.
  rewrite entered_once by now apply combine_logs_allowed.
  rewrite length_combine, range_length. lia.
Qed.

(** C9.  In the log of every run of [train], each epoch's validation pass
    comes after that epoch's training pass, and each checkpoint save and the
    early return come after that epoch's validation pass, never before. *)
Theorem train_epoch_steps_in_order (num_epochs : Z) (w : world F) :
  epoch_order (calls (snd (run num_epochs w))).
Proof.
  unfold train_with.
  destruct (loop_log (range num_epochs) policy0 {| tw := w; calls := [] |})
    as (bs & Hlen & Hall & Hcalls).
  rewrite Hcalls. cbn [calls app].
  apply logs_order.
  - apply combine_keys_NoDup, range_NoDup.
  - now apply combine_logs_allowed.
Qed.
End Run.

(** ** The policy variables that are never assigned *)

Section Best.
Variable F : framework.
Variables trn_pass val_pass : M (world F) (value * value).
Variable early_stopping : option Z.

Local Notation "'body'" := (train_epoch F trn_pass val_pass early_stopping).
Local Notation "'loop'" := (train_loop F trn_pass val_pass early_stopping).

Lemma body_keeps_best (epoch : Z) (p p' : policy) (f : flow) (st st' : run_state F) :
  body epoch p st = (Ok (f, p'), st') ->
  best_val_loss p' = best_val_loss p /\
  best_val_accuracy p' = best_val_accuracy p.
Proof.
  unfold train_epoch. unfold bind at 1.
  destruct (epoch_passes _ _ _ _ _) as [[val|e] st1]; [|discriminate].
  destruct (lt F (fst val) (best_val_loss p)) eqn:E1.
  { rewrite decide_on_loss by exact E1. discriminate. }
  destruct (lt F (snd val) (best_val_accuracy p)) eqn:E2.
  { rewrite decide_on_accuracy by assumption. discriminate. }
  rewrite decide_on_neither by assumption.
  destruct early_stopping as [threshold|]; [|discriminate].
  destruct (_ >=? threshold); [discriminate|].
  intros [= <- <- <-]. now split.
Qed.

(** However a run leaves the loop, [best_val_loss] and [best_val_accuracy]
    are what they were when it entered it. *)
Lemma loop_keeps_best (epochs : list Z) :
  forall (p p' : policy) (f : flow) (st st' : run_state F),
    loop epochs p st = (Ok (f, p'), st') ->
    best_val_loss p' = best_val_loss p /\
    best_val_accuracy p' = best_val_accuracy p.
Proof.
  induction epochs as [|epoch rest IH]; intros p p' f st st'.
  - intros [= <- <- <-]. now split.
  - rewrite loop_cons.
    destruct (body epoch p st) as [[[[|] p1]|e] st1] eqn:E; try discriminate.
    + intros H. apply IH in H as [H1 H2].
      apply body_keeps_best in E as [E1 E2]. split; congruence.
    + intros [= <- <- <-]. now apply body_keeps_best in E.
Qed.
End Best.


(** ** Epochs whose validation loss is finite *)


Lemma passes_log (F : framework) (trn_pass val_pass : M (world F) (value * value))
      (epoch : Z) (st st1 : run_state F) (val : value * value) :
  epoch_passes F trn_pass val_pass epoch st = (Ok val, st1) ->
  calls st1 = calls st ++ [(epoch, ModelTrain); (epoch, TrainOneEpoch);
                           (epoch, SchedulerStep); (epoch, PrintStats);
                           (epoch, ModelEval); (epoch, Validate);
                           (epoch, PrintStats)].
Proof.
  unfold epoch_passes, bind, called. cbn.
  destruct (trn_pass (set_training F true (tw st))) as [[trn|e] w1]; cbn;
    [|discriminate].
  match goal with |- context [val_pass ?w] =>
    destruct (val_pass w) as [[v|e] w2]; cbn; [|discriminate] end.
  intros [= _ <-]. cbn. now rewrite <- !app_assoc.
Qed.

Lemma range_pos (n : Z) : 0 < n -> exists rest, range n = 0 :: rest.
Proof.
  intros H. unfold range.
  destruct (Z.to_nat n) as [|m] eqn:E; [lia|].
  cbn. eexists. reflexivity.
Qed.


(** ** What [train] does with the module's own [train_one_epoch] *)

(** With one epoch or more to run, [train] ends in the training pass of
    epoch 0 with [ZeroDivisionError], whatever the loaders hold: no
    validation pass, no comparison, no checkpoint.  The properties of the
    policy above are therefore stated on the loop with the two passes as
    parameters. *)
Lemma train_raises_in_first_epoch
      (F : framework) (num_epochs : Z) (trn_loader val_loader : list (batch F))
      (early_stopping : option Z) (w : world F) :
  0 < num_epochs ->
  train F num_epochs trn_loader val_loader early_stopping w =
  (Raise ZeroDivisionError,
   {| tw := snd (train_one_epoch F trn_loader (set_training F true w));
      calls := [(0, ModelTrain); (0, TrainOneEpoch)] |}).
Proof.
  intros Hpos. unfold train, train_with.
  destruct (range_pos num_epochs Hpos) as [rest ->].
  rewrite loop_cons.
  unfold train_epoch, epoch_passes, bind, called. cbn.
  destruct trn_loader as [|b l].
  - rewrite train_one_epoch_empty. reflexivity.
  - rewrite train_one_epoch_nonempty. reflexivity.
Qed.

(** ** The theorems at concrete runs of the small framework *)





(** ** More on [validate]: what it returns and writes *)

Lemma wrap64_add_l (a b : Z) : wrap64 (wrap64 a + b) = wrap64 (a + b).
Proof.
  unfold wrap64. f_equal.
  replace ((a + 2 ^ 63) mod 2 ^ 64 - 2 ^ 63 + b + 2 ^ 63)
    with ((a + 2 ^ 63) mod 2 ^ 64 + b) by ring.
  rewrite Zplus_mod_idemp_l. f_equal. ring.
Qed.

Lemma wrap64_add_r (a b : Z) : wrap64 (a + wrap64 b) = wrap64 (a + b).
Proof. rewrite (Z.add_comm a), wrap64_add_l. f_equal. ring. Qed.

Lemma wrap64_sub_r (a b : Z) : wrap64 (a - wrap64 b) = wrap64 (a - b).
Proof.
  unfold wrap64. f_equal.
  replace (a - ((b + 2 ^ 63) mod 2 ^ 64 - 2 ^ 63) + 2 ^ 63)
    with (a + 2 ^ 64 - (b + 2 ^ 63) mod 2 ^ 64) by ring.
  rewrite Zminus_mod_idemp_r. f_equal. ring.
Qed.

Section ValidateReturns.
Variable F : framework.

Lemma add_tints (a b : Z) : add F (TInt a) (TInt b) = TInt (wrap64 (a + b)).
Proof. reflexivity. Qed.

Lemma sub_int_tint (a b : Z) : sub F (PyInt a) (TInt b) = TInt (wrap64 (a - b)).
Proof. reflexivity. Qed.

Lemma add_tfloats (x y : spec_float) :
  add F (TFloat x) (TFloat y) = TFloat (t_add (tprec F) (temax F) x y).
Proof. reflexivity. Qed.

(** The batch loop of [validate] from tensor counters: what it leaves in
    the counters, and that it writes one progress line per batch. *)
Lemma val_loop_tally (l : list (batch F)) :
  forall (k : Z) (w : world F) (r : spec_float) (C I : Z),
  exists (w' : world F) (lines : list line),
    for_enumerate (val_batch F) k l
      {| running_loss := TFloat r;
         correctly_classified := TInt (wrap64 C);
         incorrectly_classified := TInt (wrap64 I) |} w =
    (Ok {| running_loss :=
             TFloat (sum_losses F (batch_stats F (params w) (training w) (buffers w) l) r);
           correctly_classified :=
             TInt (wrap64 (fst (tally (batch_stats F (params w) (training w) (buffers w) l) C I)));
           incorrectly_classified :=
             TInt (wrap64 (snd (tally (batch_stats F (params w) (training w) (buffers w) l) C I))) |},
     w') /\
    console w' = console w ++ lines /\
    length lines = length l.
Proof.
  induction l as [|[x y] l IH]; intros k w r C I.
  - exists w, []. cbn. split; [reflexivity|]. split; [now rewrite app_nil_r | reflexivity].
  - cbn [for_enumerate batch_stats tally sum_losses fold_left fst snd].
    unfold bind at 1. unfold val_batch at 1. unfold bind, model_call.
    cbn [running_loss correctly_classified incorrectly_classified].
    destruct (forward F (params w) (buffers w) (training w) (transform F x))
      as [b' pred] eqn:Ef.
    rewrite add_tints, sub_int_tint, add_tints, add_tfloats.
    rewrite !truediv_tensor_l by reflexivity.
    unfold set_postfix_str, upd, ret.
    rewrite wrap64_add_l, wrap64_sub_r, wrap64_add_l, wrap64_add_r.
    match goal with |- context [for_enumerate _ _ _ _ ?w1] =>
      destruct (IH (k + 1) w1 (t_add (tprec F) (temax F) r (loss_fn F pred y))
                   (C + count_correct F pred y)
                   (I + (size0 F (transform F x) - (C + count_correct F pred y))))
        as (w' & lines & E & Hcon & Hlen)
    end.
    cbn [params training buffers console write_line set_buffers] in E, Hcon.
    eexists w', (_ :: lines). split.
    + rewrite E. unfold sum_losses. reflexivity.
    + split.
      * rewrite Hcon, <- app_assoc. reflexivity.
      * cbn. now rewrite Hlen.
Qed.

(** [validate] on a loader with a first batch: the value and the store. *)
Lemma validate_returns (b : batch F) (l : list (batch F)) (w : world F) :
  exists (w' : world F) (lines : list line),
    validate F (b :: l) w =
    (Ok (TFloat (t_div (tprec F) (temax F)
                   (sum_losses F (batch_stats F (params w) (training w) (buffers w) (b :: l)) zero)
                   (t_of_Z (tprec F) (temax F) (len (b :: l)))),
         TFloat (t_div (tprec F) (temax F)
                   (t_of_Z (tprec F) (temax F)
                      (wrap64 (fst (tally (batch_stats F (params w) (training w) (buffers w) (b :: l)) 0 0))))
                   (t_of_Z (tprec F) (temax F)
                      (wrap64 (fst (tally (batch_stats F (params w) (training w) (buffers w) (b :: l)) 0 0) +
                               snd (tally (batch_stats F (params w) (training w) (buffers w) (b :: l)) 0 0)))))),
     w') /\
    console w' = console w ++ lines /\
    length lines = length (b :: l).
Proof.
  destruct b as [x y].
  unfold validate. unfold bind at 1 2. unfold bind at 1.
  unfold with_no_grad.
  cbn [for_enumerate batch_stats tally sum_losses fold_left fst snd].
  unfold bind at 1. unfold val_batch at 1. unfold bind, model_call.
  cbn [params training buffers grad_enabled set_grad_enabled
       running_loss correctly_classified incorrectly_classified counters0].
  destruct (forward F (params w) (buffers w) (training w) (transform F x))
    as [b' pred] eqn:Ef.
  change (add F (PyInt 0) (TInt ?c)) with (TInt (wrap64 (0 + c))).
  rewrite sub_int_tint.
  change (add F (PyInt 0) (TInt ?c)) with (TInt (wrap64 (0 + c))).
  change (add F (PyFloat zero) (TFloat ?r))
    with (TFloat (t_add (tprec F) (temax F) zero r)).
  rewrite !truediv_tensor_l by reflexivity.
  unfold set_postfix_str, upd, ret.
  rewrite wrap64_sub_r, wrap64_add_r.
  match goal with |- context [for_enumerate _ _ _ _ ?w1] =>
    destruct (val_loop_tally l (1 + 1) w1
                (t_add (tprec F) (temax F) zero (loss_fn F pred y))
                (0 + count_correct F pred y)
                (0 + (size0 F (transform F x) - (0 + count_correct F pred y))))
      as (w' & lines & E & Hcon & Hlen)
  end.
  cbn [params training buffers console write_line set_buffers set_grad_enabled]
    in E, Hcon.
  rewrite E.
  cbn [running_loss correctly_classified incorrectly_classified].
  rewrite !truediv_tensor_l by reflexivity.
  rewrite add_tints, wrap64_add_l, wrap64_add_r.
  eexists _, (_ :: lines). split; [reflexivity|].
  cbn [console set_grad_enabled]. split.
  - rewrite Hcon, <- app_assoc. reflexivity.
  - cbn. now rewrite Hlen.
Qed.

(** X1.  On a loader that is not empty [validate] returns, as float
    tensors, the sum of the batch losses divided by the number of batches,
    and the ratio [correct / (correct + incorrect)] of the two counters that
    [tally] describes: [incorrect] grows at each batch by the batch size
    minus the correct answers of all the batches so far. *)
Theorem validate_returns_averages (b : batch F) (l : list (batch F)) (w : world F) :
  fst (validate F (b :: l) w) =
  Ok (TFloat (t_div (tprec F) (temax F)
                (sum_losses F (batch_stats F (params w) (training w) (buffers w) (b :: l)) zero)
                (t_of_Z (tprec F) (temax F) (len (b :: l)))),
      TFloat (t_div (tprec F) (temax F)
                (t_of_Z (tprec F) (temax F)
                   (wrap64 (fst (tally (batch_stats F (params w) (training w) (buffers w) (b :: l)) 0 0))))
                (t_of_Z (tprec F) (temax F)
                   (wrap64 (fst (tally (batch_stats F (params w) (training w) (buffers w) (b :: l)) 0 0) +
                            snd (tally (batch_stats F (params w) (training w) (buffers w) (b :: l)) 0 0)))))).
Proof.
  destruct (validate_returns b l w) as (w' & lines & E & _). now rewrite E.
Qed.

(** X2.  [validate] writes one progress line per batch after what the
    console already holds, and nothing else. *)
Theorem validate_writes_one_line_per_batch (val_loader : list (batch F)) (w : world F) :
  exists lines : list line,
    console (snd (validate F val_loader w)) = console w ++ lines /\
    length lines = length val_loader.
Proof.
  destruct val_loader as [|b l].
  - exists []. cbn. split; [now rewrite app_nil_r | reflexivity].
  - destruct (validate_returns b l w) as (w' & lines & E & Hcon & Hlen).
    exists lines. rewrite E. now split.
Qed.
End ValidateReturns.

Lemma tally_uniform (s : Z) (stats : list (spec_float * Z * Z)) :
  Forall (fun t => snd (fst t) = s /\ snd t = s) stats ->
  forall C I : Z,
    fst (tally stats C I) = C + Z.of_nat (length stats) * s /\
    2 * snd (tally stats C I) =
      2 * I + 2 * Z.of_nat (length stats) * (s - C)
      - s * Z.of_nat (length stats) * (Z.of_nat (length stats) + 1).
Proof.
  induction 1 as [|t stats [Hc Hs] _ IH]; intros C I.
  - cbn. split; ring.
  - cbn [tally length]. rewrite Hc, Hs.
    destruct (IH (C + s) (I + (s - (C + s)))) as [-> ->].
    rewrite Nat2Z.inj_succ. split; ring.
Qed.

Lemma batch_stats_length (F : framework) (p : Params F) (mode : bool)
      (l : list (batch F)) :
  forall b : Buffers F, length (batch_stats F p mode b l) = length l.
Proof. induction l as [|xy l IH]; intros b; cbn; [reflexivity | now rewrite IH]. Qed.

(** X3.  When every batch holds [s] samples and the model gets all of them
    right, the accuracy that [validate] returns on [n] batches is [n * s]
    over [d] with [2 * d = s * n * (3 - n)]: the ratio is 1 on one batch, 2
    on two, a division by zero on three, and negative from four batches on. *)
Theorem validate_accuracy_of_a_perfect_model
        (F : framework) (b : batch F) (l : list (batch F)) (w : world F) (s : Z) :
  Forall (fun t => snd (fst t) = s /\ snd t = s)
         (batch_stats F (params w) (training w) (buffers w) (b :: l)) ->
  exists (loss : value) (d : Z),
    2 * d = s * len (b :: l) * (3 - len (b :: l)) /\
    fst (validate F (b :: l) w) =
    Ok (loss,
        TFloat (t_div (tprec F) (temax F)
                  (t_of_Z (tprec F) (temax F) (wrap64 (len (b :: l) * s)))
                  (t_of_Z (tprec F) (temax F) (wrap64 d)))).
Proof.
  intros Hall.
  destruct (tally_uniform s _ Hall 0 0) as [HC HI].
  rewrite batch_stats_length in HC, HI.
  destruct (validate_returns F b l w) as (w' & lines & E & _). rewrite E.
  eexists. eexists. split; [|cbn [fst]; rewrite HC; reflexivity].
  unfold len. set (n := Z.of_nat (length (b :: l))) in *. nia.
Qed.

(** ** More on [train_one_epoch] and on [train] with it *)

Lemma trn_batch_zero (F : framework) (b : batch F) (w : world F) :
  trn_batch F 0 b counters0 w = (Raise ZeroDivisionError, first_step F b w).
Proof.
  destruct b as [x y].
  unfold trn_batch, bind, optimizer_zero_grad, do_optimizer_step, model_call,
    get, upd, first_step.
  cbn [fst snd params buffers training grads opt set_grads set_buffers].
  destruct (forward F (params w) (buffers w) (training w) (transform F x))
    as [bf pred].
  cbn [fst snd params buffers training grads opt set_grads set_buffers].
  destruct (optimizer_step F (opt w) (params w) _) as [o p'].
  reflexivity.
Qed.

(** X4.  [train_one_epoch] returns on no loader.  On an empty one it raises
    [ZeroDivisionError] at [running_loss / len(trn_loader)] with the store
    untouched; otherwise it raises it in the first iteration, after one
    optimizer step on the first batch: the parameters have moved, no
    progress line is written, no file is touched. *)
Theorem train_one_epoch_never_returns
        (F : framework) (trn_loader : list (batch F)) (w : world F) :
  train_one_epoch F trn_loader w =
    (Raise ZeroDivisionError,
     match trn_loader with
     | [] => w
     | b :: _ => first_step F b w
     end) /\
  console (snd (train_one_epoch F trn_loader w)) = console w /\
  files (snd (train_one_epoch F trn_loader w)) = files w.
Proof.
  destruct trn_loader as [|b l].
  - rewrite train_one_epoch_empty. repeat split.
  - rewrite train_one_epoch_nonempty, trn_batch_zero. repeat split.
Qed.

(** X5.  With one epoch or more to run, which is what [main] asserts,
    [train] ends in the training pass of epoch 0 with [ZeroDivisionError]:
    its log holds [model.train()] and the call of [train_one_epoch] and
    nothing after, so no validation pass and no checkpoint, whatever the
    loaders and [early_stopping] are. *)
Theorem train_fails_in_first_epoch
        (F : framework) (num_epochs : Z) (trn_loader val_loader : list (batch F))
        (early_stopping : option Z) (w : world F) :
  0 < num_epochs ->
  train F num_epochs trn_loader val_loader early_stopping w =
    (Raise ZeroDivisionError,
     {| tw := match trn_loader with
              | [] => set_training F true w
              | b :: _ => first_step F b (set_training F true w)
              end;
        calls := [(0, ModelTrain); (0, TrainOneEpoch)] |}) /\
  files (tw (snd (train F num_epochs trn_loader val_loader early_stopping w))) =
    files w.
Proof.
  intros Hpos.
  rewrite (train_raises_in_first_epoch F num_epochs trn_loader val_loader
             early_stopping w Hpos).
  destruct trn_loader as [|b l].
  - rewrite train_one_epoch_empty. split; reflexivity.
  - rewrite train_one_epoch_nonempty, trn_batch_zero. split; reflexivity.
Qed.

Lemma train_fails_in_first_epoch_witness :
  0 < 2 /\
  train toy 2 one_batch four_correct_batches (Some 1) (toy_world 0) =
    (Raise ZeroDivisionError,
     {| tw := first_step toy (2, 1) (set_training toy true (toy_world 0));
        calls := [(0, ModelTrain); (0, TrainOneEpoch)] |}).
Proof.
  split; [lia|].
  exact (proj1 (train_fails_in_first_epoch toy 2 one_batch four_correct_batches
                  (Some 1) (toy_world 0) ltac:(lia))).
Defined.

Lemma range_nonpos (n : Z) : n <= 0 -> range n = [].
Proof.
  intros H. unfold range.
  replace (Z.to_nat n) with 0%nat by lia. reflexivity.
Qed.

(** X6.  With [num_epochs <= 0] the loop body is never entered: [train]
    returns [None] at once, calls neither pass and leaves the store as it
    is. *)
Theorem train_without_epochs
        (F : framework) (trn_pass val_pass : M (world F) (value * value))
        (early_stopping : option Z) (num_epochs : Z) (w : world F) :
  num_epochs <= 0 ->
  train_with F trn_pass val_pass early_stopping num_epochs w =
  (Ok (Next, policy0), {| tw := w; calls := [] |}).
Proof.
  intros H. unfold train_with. now rewrite (range_nonpos _ H).
Qed.

Lemma train_without_epochs_witness :
  -3 <= 0 /\
  train toy (-3) one_batch one_batch None (toy_world 5) =
  (Ok (Next, policy0), {| tw := toy_world 5; calls := [] |}).
Proof.
  split; [lia|].
  exact (train_without_epochs toy (train_one_epoch toy one_batch)
           (validate toy one_batch) None (-3) (toy_world 5) ltac:(lia)).
Defined.

(** ** How runs of [train] end *)

Section Endings.
Variable F : framework.
Variables trn_pass val_pass : M (world F) (value * value).
Variable early_stopping : option Z.

Local Notation "'passes'" := (epoch_passes F trn_pass val_pass).
Local Notation "'body'" := (train_epoch F trn_pass val_pass early_stopping).
Local Notation "'loop'" := (train_loop F trn_pass val_pass early_stopping).
Local Notation "'run'" := (train_with F trn_pass val_pass early_stopping).

(** The one way in which an epoch ends without an exception: neither test
    holds and the counter stays below the threshold. *)
Lemma body_ok_cases (epoch : Z) (p p' : policy) (f : flow) (st st' : run_state F) :
  body epoch p st = (Ok (f, p'), st') ->
  exists (val : value * value) (t : Z),
    passes epoch st = (Ok val, st') /\
    f = Next /\
    p' = set_epochs_without_improvement (epochs_without_improvement p + 1) p /\
    early_stopping = Some t /\ epochs_without_improvement p + 1 < t.
Proof.
  unfold train_epoch. unfold bind at 1.
  destruct (passes epoch st) as [[val|e] st1]; [|discriminate].
  intros H.
  destruct (lt F (fst val) (best_val_loss p)) eqn:E1.
  { rewrite decide_on_loss in H by exact E1. discriminate H. }
  destruct (lt F (snd val) (best_val_accuracy p)) eqn:E2.
  { rewrite decide_on_accuracy in H by assumption. discriminate H. }
  rewrite decide_on_neither in H by assumption.
  destruct early_stopping as [t|]; [|discriminate].
  destruct (epochs_without_improvement p + 1 >=? t) eqn:E3; [discriminate H|].
  injection H as <- <- <-.
  exists val, t. repeat split. lia.
Qed.

(** The loop from any policy: how the counter and the log stand when it is
    left without an exception. *)
Lemma loop_endings (epochs : list Z) :
  forall (p p' : policy) (f : flow) (st st' : run_state F),
    loop epochs p st = (Ok (f, p'), st') ->
    f = Next /\
    length (filter enters (calls st')) =
      (length (filter enters (calls st)) + length epochs)%nat /\
    (forall k, In (k, ReturnModel) (calls st') -> In (k, ReturnModel) (calls st)) /\
    (p' = p \/
     exists t, early_stopping = Some t /\ epochs_without_improvement p' < t).
Proof.
  induction epochs as [|epoch rest IH]; intros p p' f st st'.
  - intros [= <- <- <-]. split; [reflexivity|]. split; [cbn; lia|].
    split; [auto|]. now left.
  - rewrite loop_cons.
    destruct (body epoch p st) as [[[[|] p1]|e] st1] eqn:E; try discriminate.
    + intros H. destruct (IH _ _ _ _ _ H) as (IH0 & IH1 & IH2 & IH3).
      apply body_ok_cases in E as (val & t & Hp & _ & -> & Ht & Hlt).
      pose proof (passes_log _ _ _ _ _ _ _ Hp) as Hlog.
      split; [exact IH0|]. split.
      * rewrite IH1, Hlog, filter_app, length_app. cbn. lia.
      * split.
        -- intros k Hin. apply IH2 in Hin. rewrite Hlog, in_app_iff in Hin.
           cbn in Hin. intuition congruence.
        -- right. destruct IH3 as [-> | IH3]; [|exact IH3].
           exists t. split; [exact Ht|]. cbn. lia.
    + intros _. apply body_ok_cases in E as (_ & _ & _ & Hf & _).
      discriminate Hf.
Qed.

(** X7.  When [train] returns [None], that is leaves the loop at its end,
    it has entered all [num_epochs] epochs (none when [num_epochs <= 0]) and
    never taken the early return, and [epochs_without_improvement] is 0 or
    below the [early_stopping] threshold. *)
Theorem train_returns_none_after_all_epochs
        (num_epochs : Z) (w : world F) (p : policy) (st : run_state F) :
  run num_epochs w = (Ok (Next, p), st) ->
  epochs_entered F st = Z.to_nat num_epochs /\
  (forall k, ~ In (k, ReturnModel) (calls st)) /\
  (epochs_without_improvement p = 0 \/
   exists t, early_stopping = Some t /\ epochs_without_improvement p < t).
Proof.
  unfold train_with. intros H.
  apply loop_endings in H as (_ & H1 & H2 & H3).
  cbn [calls filter length] in H1, H2.
  split; [unfold epochs_entered; rewrite H1, range_length; lia|].
  split; [intros k Hin; exact (H2 k Hin)|].
  destruct H3 as [-> | H3]; [now left | now right].
Qed.

Lemma body_no_return (epoch : Z) (p : policy) (st : run_state F) (k : Z) :
  In (k, ReturnModel) (calls (snd (body epoch p st))) ->
  In (k, ReturnModel) (calls st).
Proof.
  unfold train_epoch. unfold bind at 1.
  destruct (passes epoch st) as [[val|e] st1] eqn:Ep.
  - pose proof (passes_log _ _ _ _ _ _ _ Ep) as Hlog.
    assert (Hst1 : In (k, ReturnModel) (calls st1) -> In (k, ReturnModel) (calls st)).
    { rewrite Hlog, in_app_iff. cbn. intuition congruence. }
    assert (Hsave : In (k, ReturnModel) (calls (save_attempted F epoch st1)) ->
                    In (k, ReturnModel) (calls st)).
    { cbn [save_attempted calls]. rewrite in_app_iff. cbn. intuition congruence. }
    destruct (lt F (fst val) (best_val_loss p)) eqn:E1.
    { rewrite decide_on_loss by exact E1. exact Hsave. }
    destruct (lt F (snd val) (best_val_accuracy p)) eqn:E2.
    { rewrite decide_on_accuracy by assumption. exact Hsave. }
    rewrite decide_on_neither by assumption.
    destruct early_stopping as [t|]; [|exact Hst1].
    destruct (_ >=? t); [exact Hsave | exact Hst1].
  - cbn [snd]. revert Ep.
    unfold epoch_passes, bind, called. cbn.
    destruct (trn_pass (set_training F true (tw st))) as [[trn|e0] w1]; cbn.
    + match goal with |- context [val_pass ?w] =>
        destruct (val_pass w) as [[v|e1] w2]; cbn; [discriminate|] end.
      intros [= _ <-]. cbn. rewrite !in_app_iff. cbn. intuition congruence.
    + intros [= _ <-]. cbn. rewrite !in_app_iff. cbn. intuition congruence.
Qed.

Lemma loop_no_return (epochs : list Z) :
  forall (p : policy) (st : run_state F) (k : Z),
    In (k, ReturnModel) (calls (snd (loop epochs p st))) ->
    In (k, ReturnModel) (calls st).
Proof.
  induction epochs as [|epoch rest IH]; intros p st k.
  - cbn. auto.
  - rewrite loop_cons. pose proof (body_no_return epoch p st k) as Hb.
    destruct (body epoch p st) as [[[[|] p1]|e] st1]; cbn [snd] in *.
    + intros Hin. apply Hb. exact (IH _ _ _ Hin).
    + exact Hb.
    + exact Hb.
Qed.

(** X8.  [train] never returns the model: the early [return model] comes
    right after a call of [save_checkpoint(model, ...)], which raises, so no
    run of the loop ends with it and none logs it, whatever the passes and
    [early_stopping] are. *)
Theorem train_never_returns_the_model (num_epochs : Z) (w : world F) :
  (forall (p : policy) (st : run_state F),
     run num_epochs w <> (Ok (Returned, p), st)) /\
  (forall k, ~ In (k, ReturnModel) (calls (snd (run num_epochs w)))).
Proof.
  unfold train_with. split.
  - intros p st H. apply loop_endings in H as (H & _). discriminate H.
  - intros k Hin. apply loop_no_return in Hin. exact Hin.
Qed.
End Endings.

Section NoThreshold.
Variable F : framework.
Variables trn_pass val_pass : M (world F) (value * value).

(** X9.  With [early_stopping = None], which is what [main] passes when
    [--early-stopping] is absent, an epoch in which neither test holds
    raises [TypeError] at [epochs_without_improvement >= early_stopping]:
    nothing is saved and the epochs that remain are not run. *)
Theorem no_threshold_raises_type_error
        (epoch : Z) (rest : list Z) (p : policy) (st st1 : run_state F)
        (val_loss val_accuracy : value) :
  epoch_passes F trn_pass val_pass epoch st = (Ok (val_loss, val_accuracy), st1) ->
  lt F val_loss (best_val_loss p) = false ->
  lt F val_accuracy (best_val_accuracy p) = false ->
  train_loop F trn_pass val_pass None (epoch :: rest) p st = (Raise TypeError, st1).
Proof.
  intros Hp Hl Ha.
  rewrite loop_cons, (body_after_passes _ _ _ _ _ _ _ _ _ _ Hp).
  now rewrite decide_on_neither.
Qed.
End NoThreshold.

Lemma no_threshold_raises_type_error_witness :
  epoch_passes toy stub_trn_pass (validate toy one_batch) 0 (start (2 ^ 128 - 1)) =
    (Ok (TFloat infinity, TFloat half),
     snd (epoch_passes toy stub_trn_pass (validate toy one_batch) 0
            (start (2 ^ 128 - 1)))) /\
  lt toy (TFloat infinity) (best_val_loss policy0) = false /\
  lt toy (TFloat half) (best_val_accuracy policy0) = false /\
  train_loop toy stub_trn_pass (validate toy one_batch) None [0; 1; 2]
    policy0 (start (2 ^ 128 - 1)) =
    (Raise TypeError,
     snd (epoch_passes toy stub_trn_pass (validate toy one_batch) 0
            (start (2 ^ 128 - 1)))).
Proof.
  assert (H1 : epoch_passes toy stub_trn_pass (validate toy one_batch) 0
                 (start (2 ^ 128 - 1)) =
               (Ok (TFloat infinity, TFloat half),
                snd (epoch_passes toy stub_trn_pass (validate toy one_batch) 0
                       (start (2 ^ 128 - 1)))))
    by (vm_compute; reflexivity).
  assert (H2 : lt toy (TFloat infinity) (best_val_loss policy0) = false)
    by reflexivity.
  assert (H3 : lt toy (TFloat half) (best_val_accuracy policy0) = false)
    by reflexivity.
  split; [exact H1|]. split; [exact H2|]. split; [exact H3|].
  exact (no_threshold_raises_type_error
           toy stub_trn_pass (validate toy one_batch)
           0 [1; 2] policy0 _ _ _ _ H1 H2 H3).
Defined.

(** ** Checkpoints of [train] with the module's own [validate] *)

Section Checkpoints.
Variable F : framework.
Variable trn_pass : M (world F) (value * value).
Variable val_loader : list (batch F).
Variable early_stopping : option Z.

Local Notation "'body'" :=
  (train_epoch F trn_pass (validate F val_loader) early_stopping).
Local Notation "'loop'" :=
  (train_loop F trn_pass (validate F val_loader) early_stopping).

Lemma passes_store (epoch : Z) (st : run_state F) :
  params (tw (snd (epoch_passes F trn_pass (validate F val_loader) epoch st))) =
    params (snd (trn_pass (set_training F true (tw st)))) /\
  files (tw (snd (epoch_passes F trn_pass (validate F val_loader) epoch st))) =
    files (snd (trn_pass (set_training F true (tw st)))).
Proof.
  unfold epoch_passes, bind, called. cbn.
  destruct (trn_pass (set_training F true (tw st))) as [[trn|e] w1]; cbn;
    [|split; reflexivity].
  match goal with |- context [validate F val_loader ?w] =>
    destruct (validate_run F val_loader w)
      as (c & w2 & _ & (P1 & _ & _ & _ & _ & P6) & ->) end.
  cbn [params files set_training write_line set_opt] in P1, P6.
  destruct val_loader as [|b l]; cbn; split; assumption.
Qed.

Lemma decide_store (epoch : Z) (p : policy) (vl va : value) (st1 : run_state F) :
  params (tw (snd (decide F early_stopping epoch p vl va st1))) = params (tw st1) /\
  (files (tw (snd (decide F early_stopping epoch p vl va st1))) = files (tw st1) \/
   files (tw (snd (decide F early_stopping epoch p vl va st1))) =
     files (tw st1) ++
     [(Ellipsis, (params (tw st1),
                  buffers (tw (snd (decide F early_stopping epoch p vl va st1)))))]).
Proof.
  destruct (lt F vl (best_val_loss p)) eqn:E1.
  { rewrite decide_on_loss by exact E1. cbn. split; [reflexivity | now left]. }
  destruct (lt F va (best_val_accuracy p)) eqn:E2.
  { rewrite decide_on_accuracy by assumption. cbn.
    split; [reflexivity | now left]. }
  rewrite decide_on_neither by assumption.
  destruct early_stopping as [t|]; [|split; [reflexivity | now left]].
  destruct (_ >=? t); cbn; split; try reflexivity; now left.
Qed.

(** After the training pass of an epoch nothing moves the parameters, and
    the files get at most one more entry: the state dict at that point. *)
Lemma body_files (epoch : Z) (p : policy) (st : run_state F) :
  params (tw (snd (body epoch p st))) =
    params (snd (trn_pass (set_training F true (tw st)))) /\
  (files (tw (snd (body epoch p st))) =
     files (snd (trn_pass (set_training F true (tw st)))) \/
   files (tw (snd (body epoch p st))) =
     files (snd (trn_pass (set_training F true (tw st)))) ++
     [(Ellipsis, (params (snd (trn_pass (set_training F true (tw st)))),
                  buffers (tw (snd (body epoch p st)))))]).
Proof.
  destruct (passes_store epoch st) as [Hp Hf].
  unfold train_epoch, bind.
  destruct (epoch_passes F trn_pass (validate F val_loader) epoch st)
    as [[val|e] st1]; cbn [snd] in *.
  - destruct (decide_store epoch p (fst val) (snd val) st1) as [Dp Df].
    rewrite <- Hp, <- Hf. split; [exact Dp | exact Df].
  - split; [exact Hp | now left].
Qed.

(** X10.  In an epoch of [train] the parameters at the end of the body are
    those that the training pass left, and the body writes at most one
    file: a checkpoint with exactly those parameters.  [validate], the
    scheduler step and the prints change none of them. *)
Theorem checkpoint_holds_the_trained_parameters
        (epoch : Z) (p : policy) (st : run_state F) :
  params (tw (snd (body epoch p st))) =
    params (snd (trn_pass (set_training F true (tw st)))) /\
  (files (tw (snd (body epoch p st))) =
     files (snd (trn_pass (set_training F true (tw st)))) \/
   files (tw (snd (body epoch p st))) =
     files (snd (trn_pass (set_training F true (tw st)))) ++
     [(Ellipsis, (params (snd (trn_pass (set_training F true (tw st)))),
                  buffers (tw (snd (body epoch p st)))))]).
Proof. apply body_files. Qed.

Hypothesis trn_keeps_files : forall w, files (snd (trn_pass w)) = files w.

Lemma body_entered (epoch : Z) (p : policy) (st : run_state F) :
  length (filter enters (calls (snd (body epoch p st)))) =
  S (length (filter enters (calls st))).
Proof.
  destruct (body_log F trn_pass (validate F val_loader) early_stopping epoch p st)
    as (b & Hb & ->).
  rewrite filter_app, length_app.
  assert (H1 : length (filter enters (tagged (epoch, b))) = 1%nat).
  { unfold epoch_logs in Hb. cbn [In] in Hb.
    destruct Hb as [<- | [<- | [<- | [<- | [<- | []]]]]]; reflexivity. }
  lia.
Qed.

Lemma loop_files (epochs : list Z) :
  forall (p : policy) (st : run_state F),
  exists new : list (save_target * state_dict_t F),
    files (tw (snd (loop epochs p st))) = files (tw st) ++ new /\
    (length new + length (filter enters (calls st)) <=
     length (filter enters (calls (snd (loop epochs p st)))))%nat.
Proof.
  induction epochs as [|epoch rest IH]; intros p st.
  - exists []. cbn. split; [now rewrite app_nil_r | lia].
  - rewrite loop_cons.
    pose proof (body_files epoch p st) as [_ Hf].
    pose proof (body_entered epoch p st) as He.
    rewrite trn_keeps_files in Hf. cbn [files set_training] in Hf.
    assert (H1 : exists new1,
               files (tw (snd (body epoch p st))) = files (tw st) ++ new1 /\
               (length new1 <= 1)%nat).
    { destruct Hf as [-> | ->].
      - exists []. split; [now rewrite app_nil_r | cbn; lia].
      - eexists. split; [reflexivity | cbn; lia]. }
    destruct H1 as (new1 & Hn1 & Hl1).
    destruct (body epoch p st) as [[[[|] p1]|e] st1]; cbn [snd] in *.
    + destruct (IH p1 st1) as (new & Hn & Hl).
      exists (new1 ++ new). rewrite Hn, Hn1, app_assoc. split; [reflexivity|].
      rewrite length_app. lia.
    + exists new1. split; [exact Hn1 | lia].
    + exists new1. split; [exact Hn1 | lia].
Qed.

(** X11.  When the training pass leaves the files alone, a run of [train]
    only adds to them: what was saved before is still there, in place, and
    the run has added at most one checkpoint per epoch it entered. *)
Theorem train_only_adds_checkpoints (num_epochs : Z) (w : world F) :
  exists new : list (save_target * state_dict_t F),
    files (tw (snd (train_with F trn_pass (validate F val_loader)
                      early_stopping num_epochs w))) = files w ++ new /\
    (length new <=
     epochs_entered F (snd (train_with F trn_pass (validate F val_loader)
                              early_stopping num_epochs w)))%nat.
Proof.
  unfold train_with.
  destruct (loop_files (range num_epochs) policy0 {| tw := w; calls := [] |})
    as (new & Hn & Hl).
  exists new. split; [exact Hn|]. unfold epochs_entered.
  cbn [calls filter length] in Hl. lia.
Qed.
End Checkpoints.

(** ** The theorems above at concrete runs *)

Lemma validate_accuracy_of_a_perfect_model_witness :
  Forall (fun t : spec_float * Z * Z => snd (fst t) = 2 /\ snd t = 2)
         (batch_stats toy (params (toy_world 0)) (training (toy_world 0))
            (buffers (toy_world 0)) four_correct_batches) /\
  exists (loss : value) (d : Z),
    2 * d = 2 * len four_correct_batches * (3 - len four_correct_batches) /\
    fst (validate toy four_correct_batches (toy_world 0)) =
    Ok (loss,
        TFloat (t_div (tprec toy) (temax toy)
                  (t_of_Z (tprec toy) (temax toy)
                     (wrap64 (len four_correct_batches * 2)))
                  (t_of_Z (tprec toy) (temax toy) (wrap64 d)))).
Proof.
  assert (H : Forall (fun t : spec_float * Z * Z => snd (fst t) = 2 /\ snd t = 2)
                (batch_stats toy (params (toy_world 0)) (training (toy_world 0))
                   (buffers (toy_world 0)) four_correct_batches))
    by (repeat constructor).
  split; [exact H|].
  exact (validate_accuracy_of_a_perfect_model toy (2, 2) [(2, 2); (2, 2); (2, 2)]
           (toy_world 0) 2 H).
Defined.

Lemma train_returns_none_after_all_epochs_witness :
  train_with toy stub_trn_pass (validate toy one_batch) (Some 5) 3
    (toy_world (2 ^ 128 - 1)) =
    (Ok (Next, set_epochs_without_improvement 3 policy0),
     snd (train_with toy stub_trn_pass (validate toy one_batch) (Some 5) 3
            (toy_world (2 ^ 128 - 1)))) /\
  epochs_entered toy
    (snd (train_with toy stub_trn_pass (validate toy one_batch) (Some 5) 3
            (toy_world (2 ^ 128 - 1)))) =
    Z.to_nat 3.
Proof.
  assert (H : train_with toy stub_trn_pass (validate toy one_batch) (Some 5) 3
                (toy_world (2 ^ 128 - 1)) =
              (Ok (Next, set_epochs_without_improvement 3 policy0),
               snd (train_with toy stub_trn_pass (validate toy one_batch) (Some 5) 3
                      (toy_world (2 ^ 128 - 1)))))
    by (vm_compute; reflexivity).
  split; [exact H|].
  exact (proj1 (train_returns_none_after_all_epochs
                  toy stub_trn_pass (validate toy one_batch) (Some 5) 3
                  (toy_world (2 ^ 128 - 1)) _ _ H)).
Defined.

Lemma train_only_adds_checkpoints_witness :
  (forall w : world toy, files (snd (stub_trn_pass w)) = files w) /\
  exists new : list (save_target * state_dict_t toy),
    files (tw (snd (train_with toy stub_trn_pass (validate toy one_batch)
                      (Some 1) 2 (toy_world 0)))) = files (toy_world 0) ++ new /\
    (length new <=
     epochs_entered toy (snd (train_with toy stub_trn_pass (validate toy one_batch)
                                (Some 1%Z) 2%Z (toy_world 0%Z))))%nat.
Proof.
  assert (H : forall w : world toy, files (snd (stub_trn_pass w)) = files w)
    by (intros w; reflexivity).
  split; [exact H|].
  exact (train_only_adds_checkpoints toy stub_trn_pass one_batch (Some 1) H 2
           (toy_world 0)).
Defined.

(** ** [main] *)




